(** * Vulkan surface creation (src/video_core/vulkan_common/vulkan_surface.cpp)

    Shallow embedding of [MetalLayer] and [Vulkan::CreateSurface].

    - Pointers and handles are [N], with [0] the null pointer / [nullptr].
    - The preprocessor branches ([_WIN32], [__APPLE__], neither) are a
      [target] argument fixed for a build.
    - The Objective-C runtime is an object store: the property cells of
      each object, plus an allocation counter. Messages sent to [nil] do
      nothing and return the zero value.
    - The entry points [vkGetInstanceProcAddr] and [vkCreate*Surface*] are
      oracles. The instance's dispatch table and the environment supply
      them.
    - Everything observable (class lookups, messages sent, log lines,
      entry-point resolutions, native calls) is emitted as an event.
    - [throw vk::Exception(..)] is the [Throw] outcome of the monad. *)

From Stdlib Require Import ZArith NArith String List Bool Floats Lia.
Import ListNotations.
Open Scope string_scope.

(** ** Basic data *)

Definition ptr := N.
Definition nullptr : ptr := 0%N.

Definition VkResult := Z.
Definition VK_SUCCESS : VkResult := 0%Z.
Definition VK_ERROR_INITIALIZATION_FAILED : VkResult := (-3)%Z.

Definition VkStructureType := Z.
Definition VK_STRUCTURE_TYPE_XLIB_SURFACE_CREATE_INFO_KHR : VkStructureType := 1000004000%Z.
Definition VK_STRUCTURE_TYPE_WAYLAND_SURFACE_CREATE_INFO_KHR : VkStructureType := 1000006000%Z.
Definition VK_STRUCTURE_TYPE_WIN32_SURFACE_CREATE_INFO_KHR : VkStructureType := 1000009000%Z.
Definition VK_STRUCTURE_TYPE_METAL_SURFACE_CREATE_INFO_EXT : VkStructureType := 1000217000%Z.

(** Creation-info structures, with fields in declaration order. *)
Record VkWin32SurfaceCreateInfoKHR := {
  win32_sType : VkStructureType;
  win32_pNext : ptr;
  win32_flags : Z;
  win32_hinstance : ptr;
  win32_hwnd : ptr }.

Record VkMetalSurfaceCreateInfoEXT := {
  metal_sType : VkStructureType;
  metal_pNext : ptr;
  metal_flags : Z;
  metal_pLayer : ptr }.

Record VkXlibSurfaceCreateInfoKHR := {
  xlib_sType : VkStructureType;
  xlib_pNext : ptr;
  xlib_flags : Z;
  xlib_dpy : ptr;
  xlib_window : N }.

Record VkWaylandSurfaceCreateInfoKHR := {
  wayland_sType : VkStructureType;
  wayland_pNext : ptr;
  wayland_flags : Z;
  wayland_display : ptr;
  wayland_surface : ptr }.

(** The pointer to the creation info handed to a native entry point. *)
Inductive create_info :=
  | CIWin32 (ci : VkWin32SurfaceCreateInfoKHR)
  | CIMetal (ci : VkMetalSurfaceCreateInfoEXT)
  | CIXlib (ci : VkXlibSurfaceCreateInfoKHR)
  | CIWayland (ci : VkWaylandSurfaceCreateInfoKHR).

(** [Core::Frontend::WindowSystemType] and [WindowSystemInfo]. *)
Inductive WindowSystemType := Headless | Windows | X11 | Wayland | MacOs.

Definition WindowSystemType_eqb (a b : WindowSystemType) : bool :=
  match a, b with
  | Headless, Headless | Windows, Windows | X11, X11
  | Wayland, Wayland | MacOs, MacOs => true
  | _, _ => false
  end.

Record WindowSystemInfo := {
  type : WindowSystemType;
  display_connection : ptr;
  render_surface : ptr }.

(** The build target, which decides the preprocessor branches. *)
Inductive target := TWin32 | TApple | TOther.

Definition defined_WIN32 (t : target) : bool :=
  match t with TWin32 => true | _ => false end.
Definition defined_APPLE (t : target) : bool :=
  match t with TApple => true | _ => false end.

(** [vk::InstanceDispatch] (the part used here) and [vk::Instance]. *)
Record InstanceDispatch := {
  vkGetInstanceProcAddr : ptr -> string -> ptr }.

Record Instance := {
  instance_handle : ptr;
  Dispatch : InstanceDispatch }.

(** [vk::SurfaceKHR]: the raw handle with its owner instance and table. *)
Record SurfaceKHR := {
  surface_handle : ptr;
  surface_owner : ptr;
  surface_dld : InstanceDispatch }.

(** ** The Objective-C object store *)

Inductive objc_value :=
  | VNone
  | VBool (b : bool)
  | VPtr (p : ptr)
  | VDouble (f : float).

Record store := {
  props : ptr -> string -> objc_value;
  next_obj : N }.

Definition set_prop (s : store) (o : ptr) (k : string) (v : objc_value) : store :=
  {| props := fun o' k' =>
       if N.eqb o o' && String.eqb k k' then v else props s o' k';
     next_obj := next_obj s |}.

(** ** Observable events *)

Inductive event :=
  | EvGetClass (name : string)
  | EvMsg (receiver : ptr) (selector : string) (arg : objc_value)
  | EvLog (message : string)
  | EvGetProcAddr (instance : ptr) (name : string)
  | EvNative (name : string) (fn : ptr) (instance : ptr) (ci : create_info).

(** ** The environment: runtime and driver behaviour *)

Record env := {
  (** [objc_getClass]: class pointer, or [nil]. *)
  objc_getClass : string -> ptr;
  (** whether [+[CAMetalLayer layer]] hands back an object. *)
  layer_alloc_ok : bool;
  (** the object returned by [+[NSScreen mainScreen]] ([nil] possible). *)
  main_screen : ptr;
  (** a resolved native surface-creation entry point called at a function
      pointer: status returned and handle written through the out pointer. *)
  invoke_native : ptr -> ptr -> create_info -> VkResult * ptr }.

(** ** A state, writer and exception monad *)

Inductive outcome (A : Type) :=
  | Ok (a : A)
  | Throw (e : VkResult).
Arguments Ok {A} a.
Arguments Throw {A} e.

Definition M (A : Type) := store -> outcome A * store * list event.

Definition ret {A} (a : A) : M A := fun s => (Ok a, s, []).

Definition bind {A B} (m : M A) (k : A -> M B) : M B :=
  fun s =>
    match m s with
    | (Ok a, s1, t1) => let '(r, s2, t2) := k a s1 in (r, s2, app t1 t2)
    | (Throw e, s1, t1) => (Throw e, s1, t1)
    end.

Notation "x <- m ;; k" := (bind m (fun x => k))
  (at level 61, m at next level, right associativity).
Notation "m ;;; k" := (bind m (fun _ => k))
  (at level 61, right associativity).

Definition emit (e : event) : M unit := fun s => (Ok tt, s, [e]).
Definition throw {A} (e : VkResult) : M A := fun s => (Throw e, s, []).
Definition LOG_ERROR (msg : string) : M unit := emit (EvLog msg).

Section Surface.

Variable E : env.

(** ** Objective-C messaging primitives used by [MetalLayer]

    Each [objc_msgSend] call emits its message, including a message sent
    to [nil]. A message sent to [nil] changes nothing and returns the zero
    value of its result type. *)

Definition get_class (name : string) : M ptr :=
  emit (EvGetClass name) ;;; ret (objc_getClass E name).

(** [+[CAMetalLayer layer]]: a fresh object, or [nil]. *)
Definition msg_layer (cls : ptr) : M ptr :=
  emit (EvMsg cls "layer" VNone) ;;;
  (fun s =>
     if N.eqb cls nullptr then (Ok nullptr, s, [])
     else if layer_alloc_ok E then
       let fresh := N.succ (next_obj s) in
       (Ok fresh, {| props := props s; next_obj := fresh |}, [])
     else (Ok nullptr, s, [])).

(** [+[NSScreen mainScreen]]. *)
Definition msg_mainScreen (cls : ptr) : M ptr :=
  emit (EvMsg cls "mainScreen" VNone) ;;;
  ret (if N.eqb cls nullptr then nullptr else main_screen E).

(** A property setter [-[recv setX:v]] writing property [key]. *)
Definition msg_set (recv : ptr) (sel key : string) (v : objc_value) : M unit :=
  emit (EvMsg recv sel v) ;;;
  (fun s => (Ok tt, if N.eqb recv nullptr then s else set_prop s recv key v, [])).

(** A [double]-valued getter [-[recv key]]. *)
Definition msg_get_double (recv : ptr) (key : string) : M float :=
  emit (EvMsg recv key VNone) ;;;
  (fun s =>
     (Ok (if N.eqb recv nullptr then 0%float
          else match props s recv key with VDouble f => f | _ => 0%float end),
      s, [])).

(** ** [MetalLayer] (lines 32-66) *)

Definition MetalLayer (render_surface : ptr) : M ptr :=
  let view := render_surface in
  clsCAMetalLayer <- get_class "CAMetalLayer" ;;
  if N.eqb clsCAMetalLayer nullptr then
    (LOG_ERROR "Failed to get CAMetalLayer class." ;;; ret nullptr)
  else
    (* [CAMetalLayer layer] *)
    (cls <- get_class "CAMetalLayer" ;;
     layer <- msg_layer cls ;;
     if N.eqb layer nullptr then
       (LOG_ERROR "Failed to create Metal layer." ;;; ret nullptr)
     else
       (msg_set view "setWantsLayer:" "wantsLayer" (VBool true) ;;;
        msg_set view "setLayer:" "layer" (VPtr layer) ;;;
        nsscreen <- get_class "NSScreen" ;;
        screen <- msg_mainScreen nsscreen ;;
        factor <- msg_get_double screen "backingScaleFactor" ;;
        msg_set layer "setContentsScale:" "contentsScale" (VDouble factor) ;;;
        (* [render_surface = layer] assigns the by-value parameter only *)
        ret layer)).

(** ** Entry-point resolution and the native call *)

Definition GetInstanceProcAddr (instance : Instance) (name : string) : M ptr :=
  emit (EvGetProcAddr (instance_handle instance) name) ;;;
  ret (vkGetInstanceProcAddr (Dispatch instance) (instance_handle instance) name).

(** Calling the resolved entry point: status and the handle it writes. *)
Definition call_native (name : string) (fn : ptr) (instance : Instance)
    (ci : create_info) : M (VkResult * ptr) :=
  emit (EvNative name fn (instance_handle instance) ci) ;;;
  ret (invoke_native E fn (instance_handle instance) ci).

(** The shared body of the four builders:
    [const auto f = dld.vkGetInstanceProcAddr( *instance, name);
     if (!f || f( *instance, &ci, nullptr, &unsafe_surface) != VK_SUCCESS)
       { LOG_ERROR(msg); throw vk::Exception(VK_ERROR_INITIALIZATION_FAILED); }] *)
Definition create_with (instance : Instance) (name : string) (ci : create_info)
    (msg : string) : M ptr :=
  f <- GetInstanceProcAddr instance name ;;
  if N.eqb f nullptr then
    (LOG_ERROR msg ;;; throw VK_ERROR_INITIALIZATION_FAILED)
  else
    (r <- call_native name f instance ci ;;
     let '(status, unsafe_surface) := r in
     if Z.eqb status VK_SUCCESS then ret unsafe_surface
     else (LOG_ERROR msg ;;; throw VK_ERROR_INITIALIZATION_FAILED)).

(** ** The four builders *)

Definition win32_block (instance : Instance) (window_info : WindowSystemInfo)
    (unsafe_surface : ptr) : M ptr :=
  if WindowSystemType_eqb (type window_info) Windows then
    let hWnd := render_surface window_info in
    let win32_ci := {| win32_sType := VK_STRUCTURE_TYPE_WIN32_SURFACE_CREATE_INFO_KHR;
                       win32_pNext := nullptr; win32_flags := 0%Z;
                       win32_hinstance := nullptr; win32_hwnd := hWnd |} in
    create_with instance "vkCreateWin32SurfaceKHR" (CIWin32 win32_ci)
      "Failed to initialize Win32 surface"
  else ret unsafe_surface.

Definition metal_block (instance : Instance) (window_info : WindowSystemInfo)
    (unsafe_surface : ptr) : M ptr :=
  if WindowSystemType_eqb (type window_info) MacOs then
    layer <- MetalLayer (render_surface window_info) ;;
    let metal_ci := {| metal_sType := VK_STRUCTURE_TYPE_METAL_SURFACE_CREATE_INFO_EXT;
                       metal_pNext := nullptr; metal_flags := 0%Z;
                       metal_pLayer := layer |} in
    create_with instance "vkCreateMetalSurfaceEXT" (CIMetal metal_ci)
      "Failed to initialize metal surface"
  else ret unsafe_surface.

Definition xlib_block (instance : Instance) (window_info : WindowSystemInfo)
    (unsafe_surface : ptr) : M ptr :=
  if WindowSystemType_eqb (type window_info) X11 then
    let xlib_ci := {| xlib_sType := VK_STRUCTURE_TYPE_XLIB_SURFACE_CREATE_INFO_KHR;
                      xlib_pNext := nullptr; xlib_flags := 0%Z;
                      xlib_dpy := display_connection window_info;
                      xlib_window := render_surface window_info |} in
    create_with instance "vkCreateXlibSurfaceKHR" (CIXlib xlib_ci)
      "Failed to initialize Xlib surface"
  else ret unsafe_surface.

Definition wayland_block (instance : Instance) (window_info : WindowSystemInfo)
    (unsafe_surface : ptr) : M ptr :=
  if WindowSystemType_eqb (type window_info) Wayland then
    let wayland_ci := {| wayland_sType := VK_STRUCTURE_TYPE_WAYLAND_SURFACE_CREATE_INFO_KHR;
                         wayland_pNext := nullptr; wayland_flags := 0%Z;
                         wayland_display := display_connection window_info;
                         wayland_surface := render_surface window_info |} in
    create_with instance "vkCreateWaylandSurfaceKHR" (CIWayland wayland_ci)
      "Failed to initialize Wayland surface"
  else ret unsafe_surface.

(** ** [Vulkan::CreateSurface] (lines 73-141) *)

Definition CreateSurface (tgt : target) (instance : Instance)
    (window_info : WindowSystemInfo) : M SurfaceKHR :=
  let unsafe_surface := nullptr in
  unsafe_surface <-
    (if defined_WIN32 tgt then win32_block instance window_info unsafe_surface
     else ret unsafe_surface) ;;
  unsafe_surface <-
    (if defined_APPLE tgt then metal_block instance window_info unsafe_surface
     else ret unsafe_surface) ;;
  unsafe_surface <-
    (if negb (defined_WIN32 tgt) && negb (defined_APPLE tgt)
     then xlib_block instance window_info unsafe_surface
     else ret unsafe_surface) ;;
  unsafe_surface <-
    (if negb (defined_WIN32 tgt) && negb (defined_APPLE tgt)
     then wayland_block instance window_info unsafe_surface
     else ret unsafe_surface) ;;
  if N.eqb unsafe_surface nullptr then
    (LOG_ERROR "Presentation not supported on this platform" ;;;
     throw VK_ERROR_INITIALIZATION_FAILED)
  else
    ret {| surface_handle := unsafe_surface;
           surface_owner := instance_handle instance;
           surface_dld := Dispatch instance |}.

End Surface.

(** ** Helpers read off the source for stating properties *)

(** The builders the preprocessor keeps for each target, by discriminant. *)
Definition compiled_types (tgt : target) : list WindowSystemType :=
  match tgt with
  | TWin32 => [Windows]
  | TApple => [MacOs]
  | TOther => [X11; Wayland]
  end.

(** The entry point each builder resolves. *)
Definition entry_point (ty : WindowSystemType) : string :=
  match ty with
  | Windows => "vkCreateWin32SurfaceKHR"
  | MacOs => "vkCreateMetalSurfaceEXT"
  | X11 => "vkCreateXlibSurfaceKHR"
  | Wayland => "vkCreateWaylandSurfaceKHR"
  | Headless => ""
  end.

(** The graphics-API events of a trace: resolutions and native calls. *)
Definition is_vk_event (e : event) : bool :=
  match e with
  | EvGetProcAddr _ _ | EvNative _ _ _ _ => true
  | _ => false
  end.

Definition vk_events (t : list event) : list event := filter is_vk_event t.

Definition result {A} (r : outcome A * store * list event) : outcome A := fst (fst r).
Definition final_store {A} (r : outcome A * store * list event) : store := snd (fst r).
Definition trace {A} (r : outcome A * store * list event) : list event := snd r.

(** ** Concrete inputs *)

Definition sample_classes (name : string) : ptr :=
  if String.eqb name "CAMetalLayer" then 100%N
  else if String.eqb name "NSScreen" then 200%N
  else nullptr.

(** A runtime with every class, a main screen at [300], and a driver whose
    entry points accept every call and write the handle [77]. *)
Definition env_ok : env := {|
  objc_getClass := sample_classes;
  layer_alloc_ok := true;
  main_screen := 300%N;
  invoke_native := fun _ _ _ => (VK_SUCCESS, 77%N) |}.

(** The same runtime without the [CAMetalLayer] class. *)
Definition env_no_metal : env := {|
  objc_getClass := fun name =>
    if String.eqb name "CAMetalLayer" then nullptr else sample_classes name;
  layer_alloc_ok := true;
  main_screen := 300%N;
  invoke_native := fun _ _ _ => (VK_SUCCESS, 77%N) |}.

(** The runtime of [env_ok] where [+[NSScreen mainScreen]] returns [nil]. *)
Definition env_no_screen : env := {|
  objc_getClass := sample_classes;
  layer_alloc_ok := true;
  main_screen := nullptr;
  invoke_native := fun _ _ _ => (VK_SUCCESS, 77%N) |}.

(** A store where the main screen [300] has backing scale factor [2.0]. *)
Definition store0 : store := {|
  props := fun o k =>
    if N.eqb o 300 && String.eqb k "backingScaleFactor" then VDouble 2.0
    else VNone;
  next_obj := 1000%N |}.

Definition dld_all : InstanceDispatch := {| vkGetInstanceProcAddr := fun _ _ => 42%N |}.
Definition dld_none : InstanceDispatch := {| vkGetInstanceProcAddr := fun _ _ => nullptr |}.

Definition inst_all : Instance := {| instance_handle := 5%N; Dispatch := dld_all |}.
Definition inst_none : Instance := {| instance_handle := 5%N; Dispatch := dld_none |}.

Definition window (ty : WindowSystemType) : WindowSystemInfo :=
  {| type := ty; display_connection := 11%N; render_surface := 22%N |}.

(** * Properties *)

Open Scope list_scope.

Lemma vk_events_app (t1 t2 : list event) :
  vk_events (t1 ++ t2) = vk_events t1 ++ vk_events t2.
Proof. unfold vk_events. apply filter_app. Qed.


Ltac run :=
  cbv beta iota delta [CreateSurface win32_block metal_block xlib_block
    wayland_block create_with call_native GetInstanceProcAddr
    get_class msg_layer msg_mainScreen msg_set msg_get_double
    bind ret emit throw LOG_ERROR defined_WIN32 defined_APPLE
    WindowSystemType_eqb negb andb result final_store trace] in *;
  cbn [type render_surface display_connection app fst snd] in *.

(** ** General shape of [MetalLayer]: it never throws and makes no
    graphics-API call. *)
Lemma MetalLayer_shape (E : env) (view : ptr) (s : store) :
  exists layer s' t, MetalLayer E view s = (Ok layer, s', t) /\ vk_events t = [].
Proof.
  unfold MetalLayer. run.
  repeat (match goal with
          | |- context [if ?b then _ else _] => destruct b
          end; cbn); eauto.
Qed.

(** A discriminant with no builder for the target runs no builder: the
    raw handle stays [nullptr] and the final check throws. *)
Lemma CreateSurface_not_compiled (E : env) (tgt : target) (instance : Instance)
    (window_info : WindowSystemInfo) (s : store) :
  ~ In (type window_info) (compiled_types tgt) ->
  CreateSurface E tgt instance window_info s =
    (Throw VK_ERROR_INITIALIZATION_FAILED, s,
     [EvLog "Presentation not supported on this platform"]).
Proof.
  intros Hnot. destruct window_info as [ty dc rs].
  destruct tgt, ty; cbn in Hnot; try tauto; run; reflexivity.
Qed.

(** [C3] A descriptor whose discriminant matches no builder compiled for
    the target (for instance [Headless]) makes [CreateSurface] fail with
    [VK_ERROR_INITIALIZATION_FAILED]. It resolves no entry point and calls
    no native function. Its only event is the final "Presentation not
    supported" log line, which is emitted only while the raw handle is
    still null. *)
Theorem CreateSurface_unsupported_fails (E : env) (tgt : target)
    (instance : Instance) (window_info : WindowSystemInfo) (s : store) :
  ~ In (type window_info) (compiled_types tgt) ->
  let r := CreateSurface E tgt instance window_info s in
  result r = Throw VK_ERROR_INITIALIZATION_FAILED /\
  final_store r = s /\
  vk_events (trace r) = [] /\
  trace r = [EvLog "Presentation not supported on this platform"].
Proof.
  intros Hnot r. subst r.
  rewrite (CreateSurface_not_compiled E tgt instance window_info s Hnot).
  repeat split.
Qed.

Lemma CreateSurface_unsupported_fails_witness :
  ~ In (type (window Headless)) (compiled_types TOther) /\
  result (CreateSurface env_ok TOther inst_all (window Headless) store0)
    = Throw VK_ERROR_INITIALIZATION_FAILED.
Proof.
  split.
  - cbn. intros [H|[H|H]]; discriminate || exact H.
  - apply (CreateSurface_unsupported_fails env_ok TOther inst_all (window Headless) store0).
    cbn. intros [H|[H|H]]; discriminate || exact H.
Defined.

(** [C8] Two calls of [CreateSurface] with the same instance and the same
    descriptor whose discriminant has no builder on the target, the second
    run from the store the first one left, fail the same way. They emit
    the same events and leave the Objective-C store as it was: no state
    carries over from one call to the next. *)
Theorem CreateSurface_unsupported_repeatable (E : env) (tgt : target)
    (instance : Instance) (window_info : WindowSystemInfo) (s : store) :
  ~ In (type window_info) (compiled_types tgt) ->
  let r1 := CreateSurface E tgt instance window_info s in
  let r2 := CreateSurface E tgt instance window_info (final_store r1) in
  result r1 = Throw VK_ERROR_INITIALIZATION_FAILED /\
  result r2 = result r1 /\
  trace r2 = trace r1 /\
  final_store r1 = s /\
  final_store r2 = s.
Proof.
  intros Hnot r1 r2. subst r1 r2.
  rewrite (CreateSurface_not_compiled E tgt instance window_info s Hnot).
  cbn [final_store fst snd].
  rewrite (CreateSurface_not_compiled E tgt instance window_info s Hnot).
  repeat split.
Qed.

Lemma CreateSurface_unsupported_repeatable_witness :
  ~ In (type (window Headless)) (compiled_types TApple) /\
  result (CreateSurface env_ok TApple inst_all (window Headless)
            (final_store (CreateSurface env_ok TApple inst_all (window Headless) store0)))
  = result (CreateSurface env_ok TApple inst_all (window Headless) store0).
Proof.
  split.
  - cbn. intros [H|H]; discriminate || exact H.
  - apply (CreateSurface_unsupported_repeatable env_ok TApple inst_all (window Headless) store0).
    cbn. intros [H|H]; discriminate || exact H.
Defined.

Ltac open_metal :=
  match goal with
  | |- context [MetalLayer ?E ?v ?s] =>
      let l := fresh "layer" in let s' := fresh "s'" in let t := fresh "t" in
      let Heq := fresh "Heq" in let Hvk := fresh "Hvk" in
      destruct (MetalLayer_shape E v s) as (l & s' & t & Heq & Hvk);
      rewrite Heq
  | _ => idtac
  end.

Ltac split_native :=
  match goal with
  | |- context [invoke_native ?E ?f ?h ?ci] =>
      let st := fresh "st" in let u := fresh "u" in
      let Hn := fresh "Hn" in let Hs := fresh "Hs" in
      destruct (invoke_native E f h ci) as [st u] eqn:Hn;
      destruct (Z.eqb st VK_SUCCESS) eqn:Hs; cbn;
      [destruct (N.eqb u nullptr) eqn:?; cbn|]
  end.

(** [C4] For a discriminant with a builder on the target:
    - if its entry point resolves to null, [CreateSurface] fails with
      [VK_ERROR_INITIALIZATION_FAILED] after exactly one resolution;
    - otherwise it makes exactly one native call, and if that call does not
      return [VK_SUCCESS], [CreateSurface] fails in the same way.
    In both cases no other entry point is resolved or called: there is no
    retry and no fallback to another platform. *)
Theorem CreateSurface_entry_point_failure (E : env) (tgt : target)
    (instance : Instance) (window_info : WindowSystemInfo) (s : store) :
  In (type window_info) (compiled_types tgt) ->
  let h := instance_handle instance in
  let name := entry_point (type window_info) in
  let f := vkGetInstanceProcAddr (Dispatch instance) h name in
  let r := CreateSurface E tgt instance window_info s in
  (f = nullptr ->
     result r = Throw VK_ERROR_INITIALIZATION_FAILED /\
     vk_events (trace r) = [EvGetProcAddr h name]) /\
  (f <> nullptr ->
     exists ci,
       vk_events (trace r) = [EvGetProcAddr h name; EvNative name f h ci] /\
       (fst (invoke_native E f h ci) <> VK_SUCCESS ->
        result r = Throw VK_ERROR_INITIALIZATION_FAILED)).
Proof.
  intros Hin h name f r. subst h name f r.
  destruct window_info as [ty dc rs].
  destruct tgt, ty; cbn in Hin; try (exfalso; intuition congruence); run.
  all: cbn [entry_point type]; open_metal; cbn.
  all: split; intros Hf.
  all: try (rewrite Hf; cbn; rewrite ?vk_events_app, ?Hvk; split; reflexivity).
  all: apply N.eqb_neq in Hf; rewrite Hf; cbn.
  all: split_native.
  all: eexists; split; [rewrite ?vk_events_app, ?Hvk; reflexivity|].
  all: intros Hst; rewrite Hn in Hst; cbn in Hst.
  all: try (apply Z.eqb_eq in Hs; contradiction).
  all: reflexivity.
Qed.

Lemma CreateSurface_entry_point_failure_witness :
  In (type (window X11)) (compiled_types TOther) /\
  result (CreateSurface env_ok TOther inst_none (window X11) store0)
    = Throw VK_ERROR_INITIALIZATION_FAILED.
Proof.
  assert (Hin : In (type (window X11)) (compiled_types TOther)) by (cbn; tauto).
  split; [exact Hin|].
  apply (proj1 (CreateSurface_entry_point_failure env_ok TOther inst_none
                  (window X11) store0 Hin)).
  reflexivity.
Defined.

(** [C5] Dispatch reads only the descriptor's discriminant.
    - For a discriminant with a builder on the target, only that builder
      runs: one resolution of its own entry point, then at most one call
      of it.
    - For any other discriminant, nothing is resolved or called.
    The builders reachable on each target are those of [compiled_types]:
    [Windows] on a Win32 build, [MacOs] on an Apple build, and both [X11]
    and [Wayland] on any other build. *)
Theorem CreateSurface_dispatch (E : env) (tgt : target) (instance : Instance)
    (window_info : WindowSystemInfo) (s : store) :
  let h := instance_handle instance in
  let name := entry_point (type window_info) in
  let t := vk_events (trace (CreateSurface E tgt instance window_info s)) in
  (In (type window_info) (compiled_types tgt) ->
     t = [EvGetProcAddr h name] \/
     exists f ci, t = [EvGetProcAddr h name; EvNative name f h ci]) /\
  (~ In (type window_info) (compiled_types tgt) -> t = []).
Proof.
  intros h name t. subst h name t. split; intros Hin.
  - destruct window_info as [ty dc rs].
    destruct tgt, ty; cbn in Hin; try (exfalso; intuition congruence); run.
    all: cbn [entry_point type]; open_metal; cbn.
    all: match goal with
         | |- context [N.eqb ?f nullptr] => destruct (N.eqb f nullptr); cbn
         end.
    all: try (left; rewrite ?vk_events_app, ?Hvk; reflexivity).
    all: split_native; right; do 2 eexists; rewrite ?vk_events_app, ?Hvk;
         reflexivity.
  - rewrite (CreateSurface_not_compiled E tgt instance window_info s Hin).
    reflexivity.
Qed.

(** [C5] counterexample: on a build that is neither Win32 nor Apple, two
    builder families are compiled in. An [X11] descriptor reaches the Xlib
    entry point and a [Wayland] descriptor reaches the Wayland one. *)
Lemma CreateSurface_two_families_on_other :
  In (EvGetProcAddr 5%N "vkCreateXlibSurfaceKHR")
     (trace (CreateSurface env_ok TOther inst_all (window X11) store0)) /\
  In (EvGetProcAddr 5%N "vkCreateWaylandSurfaceKHR")
     (trace (CreateSurface env_ok TOther inst_all (window Wayland) store0)).
Proof. vm_compute. split; left; reflexivity. Qed.

(** [C6] When a builder runs and its entry point resolves, the native call
    receives the builder's creation-info record in this layout:
    - structure tag first, then [pNext = nullptr] and [flags = 0];
    - desktop-native (Win32): a null instance handle, then the native
      window handle;
    - X11: the display connection pointer, then the window identifier;
    - Wayland: the display connection pointer, then the compositor surface
      pointer;
    - Apple: the layer that [MetalLayer] returned. *)
Theorem CreateSurface_create_info (E : env) (tgt : target) (instance : Instance)
    (window_info : WindowSystemInfo) (s : store) :
  In (type window_info) (compiled_types tgt) ->
  let h := instance_handle instance in
  let name := entry_point (type window_info) in
  let f := vkGetInstanceProcAddr (Dispatch instance) h name in
  f <> nullptr ->
  let t := trace (CreateSurface E tgt instance window_info s) in
  match type window_info with
  | Windows =>
      In (EvNative name f h (CIWin32 (Build_VkWin32SurfaceCreateInfoKHR
            VK_STRUCTURE_TYPE_WIN32_SURFACE_CREATE_INFO_KHR nullptr 0%Z
            nullptr (render_surface window_info)))) t
  | X11 =>
      In (EvNative name f h (CIXlib (Build_VkXlibSurfaceCreateInfoKHR
            VK_STRUCTURE_TYPE_XLIB_SURFACE_CREATE_INFO_KHR nullptr 0%Z
            (display_connection window_info) (render_surface window_info)))) t
  | Wayland =>
      In (EvNative name f h (CIWayland (Build_VkWaylandSurfaceCreateInfoKHR
            VK_STRUCTURE_TYPE_WAYLAND_SURFACE_CREATE_INFO_KHR nullptr 0%Z
            (display_connection window_info) (render_surface window_info)))) t
  | MacOs =>
      exists layer,
        result (MetalLayer E (render_surface window_info) s) = Ok layer /\
        In (EvNative name f h (CIMetal (Build_VkMetalSurfaceCreateInfoEXT
              VK_STRUCTURE_TYPE_METAL_SURFACE_CREATE_INFO_EXT nullptr 0%Z
              layer))) t
  | Headless => False
  end.
Proof.
  intros Hin h name f Hf t. subst h name f t.
  destruct window_info as [ty dc rs].
  destruct tgt, ty; cbn in Hin; try (exfalso; intuition congruence); run.
  all: cbn [entry_point type] in *; open_metal; cbn.
  all: apply N.eqb_neq in Hf; rewrite Hf; cbn.
  all: split_native.
  all: try (eexists; split; [reflexivity|]).
  all: rewrite ?in_app_iff; cbn; intuition auto.
Qed.

Lemma CreateSurface_create_info_witness :
  In (type (window X11)) (compiled_types TOther) /\
  In (EvNative "vkCreateXlibSurfaceKHR" 42%N 5%N
        (CIXlib (Build_VkXlibSurfaceCreateInfoKHR
           VK_STRUCTURE_TYPE_XLIB_SURFACE_CREATE_INFO_KHR nullptr 0%Z 11%N 22%N)))
     (trace (CreateSurface env_ok TOther inst_all (window X11) store0)).
Proof.
  assert (Hin : In (type (window X11)) (compiled_types TOther)) by (cbn; tauto).
  split; [exact Hin|].
  exact (CreateSurface_create_info env_ok TOther inst_all (window X11) store0 Hin
           ltac:(vm_compute; discriminate)).
Defined.

(** What [CreateSurface] hands back: a surface with a non-null handle, owned
    by the calling instance and its table, or the single error
    [VK_ERROR_INITIALIZATION_FAILED]. *)
Lemma CreateSurface_outcome (E : env) (tgt : target) (instance : Instance)
    (window_info : WindowSystemInfo) (s : store) :
  let r := CreateSurface E tgt instance window_info s in
  (forall sf, result r = Ok sf ->
     surface_handle sf <> nullptr /\
     surface_owner sf = instance_handle instance /\
     surface_dld sf = Dispatch instance) /\
  (forall e, result r = Throw e -> e = VK_ERROR_INITIALIZATION_FAILED).
Proof.
  intros r. subst r.
  destruct window_info as [ty dc rs].
  destruct tgt, ty; run; cbn [type]; open_metal; cbn.
  all: try (match goal with
            | |- context [N.eqb ?f nullptr] =>
                destruct (N.eqb f nullptr) eqn:?; cbn
            end).
  all: try split_native.
  all: split; intros ? Hr; try discriminate;
       try (injection Hr as <-; cbn; repeat split; auto; apply N.eqb_neq; assumption);
       try (injection Hr as <-; reflexivity).
Qed.

(** ** The Apple layer adapter *)

(** When the [CAMetalLayer] class is missing, or [+[CAMetalLayer layer]]
    returns [nil], [MetalLayer] returns [nullptr] right after its log
    line and leaves the store as it was. *)
Lemma MetalLayer_fails (E : env) (view : ptr) (s : store) :
  objc_getClass E "CAMetalLayer" = nullptr \/ layer_alloc_ok E = false ->
  MetalLayer E view s =
    (Ok nullptr, s, [EvGetClass "CAMetalLayer";
                     EvLog "Failed to get CAMetalLayer class."]) \/
  MetalLayer E view s =
    (Ok nullptr, s, [EvGetClass "CAMetalLayer"; EvGetClass "CAMetalLayer";
                     EvMsg (objc_getClass E "CAMetalLayer") "layer" VNone;
                     EvLog "Failed to create Metal layer."]).
Proof.
  intros [Hcls | Halloc]; unfold MetalLayer; run.
  - rewrite Hcls. cbn. left. reflexivity.
  - destruct (N.eqb (objc_getClass E "CAMetalLayer") nullptr) eqn:Hz; cbn.
    + left. reflexivity.
    + rewrite Halloc. cbn. right. reflexivity.
Qed.

(** [C9] If the adapter fails (class missing, or [nil] from
    [+[CAMetalLayer layer]]), it returns [nullptr] and leaves the
    Objective-C store untouched, so the view's [wantsLayer] and [layer]
    are unchanged. The only message it sends is [layer] to the class;
    [setWantsLayer:] and [setLayer:] are never sent. *)
Theorem MetalLayer_failure_atomic (E : env) (view : ptr) (s : store) :
  objc_getClass E "CAMetalLayer" = nullptr \/ layer_alloc_ok E = false ->
  let r := MetalLayer E view s in
  result r = Ok nullptr /\
  final_store r = s /\
  props (final_store r) view "wantsLayer" = props s view "wantsLayer" /\
  props (final_store r) view "layer" = props s view "layer" /\
  (forall recv sel arg, In (EvMsg recv sel arg) (trace r) -> sel = "layer").
Proof.
  intros Hfail r. subst r.
  destruct (MetalLayer_fails E view s Hfail) as [Heq | Heq]; rewrite Heq;
    cbn; (split; [reflexivity|]); (split; [reflexivity|]);
    (split; [reflexivity|]); (split; [reflexivity|]);
    intros recv sel arg Hin; intuition congruence.
Qed.

Lemma MetalLayer_failure_atomic_witness :
  (objc_getClass env_no_metal "CAMetalLayer" = nullptr \/
   layer_alloc_ok env_no_metal = false) /\
  final_store (MetalLayer env_no_metal 22%N store0) = store0.
Proof.
  assert (H : objc_getClass env_no_metal "CAMetalLayer" = nullptr \/
              layer_alloc_ok env_no_metal = false) by (left; reflexivity).
  split; [exact H|].
  exact (proj1 (proj2 (MetalLayer_failure_atomic env_no_metal 22%N store0 H))).
Defined.

(** [C7] When layer creation succeeds and the main screen exists with
    backing scale factor [f], the returned layer's [contentsScale] is
    [f]. *)
Theorem MetalLayer_contents_scale (E : env) (view : ptr) (s : store) (f : float) :
  objc_getClass E "CAMetalLayer" <> nullptr ->
  layer_alloc_ok E = true ->
  objc_getClass E "NSScreen" <> nullptr ->
  main_screen E <> nullptr ->
  props s (main_screen E) "backingScaleFactor" = VDouble f ->
  let r := MetalLayer E view s in
  exists layer,
    result r = Ok layer /\
    props (final_store r) layer "contentsScale" = VDouble f.
Proof.
  intros Hcls Halloc Hns Hscr Hf r. subst r.
  apply N.eqb_neq in Hcls, Hns, Hscr.
  unfold MetalLayer; run.
  rewrite Hcls, Halloc; cbn.
  assert (Hfresh : N.eqb (N.succ (next_obj s)) nullptr = false)
    by (apply N.eqb_neq; unfold nullptr; lia).
  rewrite Hfresh; cbn. rewrite Hns; cbn. rewrite Hscr; cbn.
  eexists; split; [reflexivity|].
  destruct (N.eqb view nullptr); cbn; rewrite ?N.eqb_refl; cbn;
    rewrite ?andb_false_r; cbn; rewrite Hf; reflexivity.
Qed.

Lemma MetalLayer_contents_scale_witness :
  exists layer,
    result (MetalLayer env_ok 22%N store0) = Ok layer /\
    props (final_store (MetalLayer env_ok 22%N store0)) layer "contentsScale"
      = VDouble 2.0%float.
Proof.
  apply (MetalLayer_contents_scale env_ok 22%N store0 2.0%float);
    vm_compute; congruence.
Defined.

(** [C10] Once [+[CAMetalLayer layer]] yields an object, [MetalLayer]
    returns it, and that pointer is non-null. Nothing about the main
    screen is checked. If the [NSScreen] class or the main screen is
    [nil], the scale query is a message to [nil], which returns [0.0],
    so the returned layer gets [contentsScale = 0.0]. *)
Theorem MetalLayer_success_unconditional (E : env) (view : ptr) (s : store) :
  objc_getClass E "CAMetalLayer" <> nullptr ->
  layer_alloc_ok E = true ->
  let r := MetalLayer E view s in
  let layer := N.succ (next_obj s) in
  result r = Ok layer /\
  layer <> nullptr /\
  (objc_getClass E "NSScreen" = nullptr \/ main_screen E = nullptr ->
   props (final_store r) layer "contentsScale" = VDouble 0%float).
Proof.
  intros Hcls Halloc r layer. subst r layer.
  apply N.eqb_neq in Hcls.
  assert (Hfresh : N.eqb (N.succ (next_obj s)) nullptr = false)
    by (apply N.eqb_neq; unfold nullptr; lia).
  unfold MetalLayer; run.
  rewrite Hcls, Halloc; cbn. rewrite Hfresh; cbn.
  split; [|split].
  - destruct (N.eqb view nullptr), (N.eqb (objc_getClass E "NSScreen") nullptr);
      reflexivity.
  - apply N.eqb_neq. exact Hfresh.
  - intros Hnil. rewrite N.eqb_refl. cbn [andb].
    destruct (N.eqb (objc_getClass E "NSScreen") nullptr) eqn:Hns.
    + reflexivity.
    + destruct Hnil as [Hn | Hn].
      * rewrite Hn in Hns. discriminate.
      * rewrite Hn. reflexivity.
Qed.

Lemma MetalLayer_success_unconditional_witness :
  result (MetalLayer env_no_screen 22%N store0) = Ok 1001%N /\
  props (final_store (MetalLayer env_no_screen 22%N store0)) 1001%N "contentsScale"
    = VDouble 0%float.
Proof.
  destruct (MetalLayer_success_unconditional env_no_screen 22%N store0
              ltac:(vm_compute; discriminate) eq_refl) as [Hr [_ Hz]].
  split; [exact Hr|].
  apply Hz. right. reflexivity.
Defined.

(** ** The Apple builder with a failed layer *)

(** [C1] When [MetalLayer] fails it returns [nullptr], and the Apple
    builder does not check this. If [vkCreateMetalSurfaceEXT] resolves,
    the builder still calls it, with [pLayer = nullptr]. *)
Theorem metal_null_layer_reaches_native (E : env) (instance : Instance)
    (window_info : WindowSystemInfo) (s : store) :
  type window_info = MacOs ->
  objc_getClass E "CAMetalLayer" = nullptr \/ layer_alloc_ok E = false ->
  let h := instance_handle instance in
  let f := vkGetInstanceProcAddr (Dispatch instance) h "vkCreateMetalSurfaceEXT" in
  f <> nullptr ->
  result (MetalLayer E (render_surface window_info) s) = Ok nullptr /\
  In (EvNative "vkCreateMetalSurfaceEXT" f h
        (CIMetal (Build_VkMetalSurfaceCreateInfoEXT
           VK_STRUCTURE_TYPE_METAL_SURFACE_CREATE_INFO_EXT nullptr 0%Z nullptr)))
     (trace (CreateSurface E TApple instance window_info s)).
Proof.
  intros Hty Hfail h f Hf. subst h f.
  destruct window_info as [ty dc rs]; cbn in Hty; subst ty; cbn [render_surface].
  apply N.eqb_neq in Hf.
  destruct (MetalLayer_fails E rs s Hfail) as [Heq | Heq];
    (split; [rewrite Heq; reflexivity|]);
    run; rewrite Heq; cbn; rewrite Hf; cbn; split_native;
    rewrite ?in_app_iff; cbn; intuition auto.
Qed.

Lemma metal_null_layer_reaches_native_witness :
  result (MetalLayer env_no_metal 22%N store0) = Ok nullptr /\
  In (EvNative "vkCreateMetalSurfaceEXT" 42%N 5%N
        (CIMetal (Build_VkMetalSurfaceCreateInfoEXT
           VK_STRUCTURE_TYPE_METAL_SURFACE_CREATE_INFO_EXT nullptr 0%Z nullptr)))
     (trace (CreateSurface env_no_metal TApple inst_all (window MacOs) store0)).
Proof.
  exact (metal_null_layer_reaches_native env_no_metal inst_all (window MacOs) store0
           eq_refl (or_introl eq_refl) ltac:(vm_compute; discriminate)).
Defined.

(** [C2] Failing input: on an Apple build, without the [CAMetalLayer]
    class, with a driver whose [vkCreateMetalSurfaceEXT] accepts the call,
    [MetalLayer] fails but [CreateSurface] returns a surface. The layer
    failure never reaches the caller as [VK_ERROR_INITIALIZATION_FAILED]. *)
Lemma CreateSurface_layer_failure_not_collapsed :
  result (MetalLayer env_no_metal 22%N store0) = Ok nullptr /\
  In (EvLog "Failed to get CAMetalLayer class.")
     (trace (CreateSurface env_no_metal TApple inst_all (window MacOs) store0)) /\
  result (CreateSurface env_no_metal TApple inst_all (window MacOs) store0)
    = Ok {| surface_handle := 77%N; surface_owner := 5%N; surface_dld := dld_all |}.
Proof. vm_compute. split; [reflexivity | split; [right; left; reflexivity | reflexivity]]. Qed.

(** * Further properties of [CreateSurface] and [MetalLayer] *)

(** When a builder runs and its entry point resolves, the call succeeds
    exactly when the native function reports [VK_SUCCESS] and writes a
    non-null handle. The surface then wraps that handle. Otherwise the
    call fails with [VK_ERROR_INITIALIZATION_FAILED]. *)
Theorem CreateSurface_native_decides (E : env) (tgt : target) (instance : Instance)
    (window_info : WindowSystemInfo) (s : store) :
  In (type window_info) (compiled_types tgt) ->
  let h := instance_handle instance in
  let name := entry_point (type window_info) in
  let f := vkGetInstanceProcAddr (Dispatch instance) h name in
  f <> nullptr ->
  let r := CreateSurface E tgt instance window_info s in
  exists ci,
    vk_events (trace r) = [EvGetProcAddr h name; EvNative name f h ci] /\
    result r =
      (let '(status, u) := invoke_native E f h ci in
       if Z.eqb status VK_SUCCESS && negb (N.eqb u nullptr)
       then Ok {| surface_handle := u; surface_owner := h;
                  surface_dld := Dispatch instance |}
       else Throw VK_ERROR_INITIALIZATION_FAILED).
Proof.
  intros Hin h name f Hf r. subst h name f r.
  destruct window_info as [ty dc rs].
  destruct tgt, ty; cbn in Hin; try (exfalso; intuition congruence); run.
  all: cbn [entry_point type] in *; open_metal; cbn.
  all: apply N.eqb_neq in Hf; rewrite Hf; cbn.
  all: split_native.
  all: eexists; split; [rewrite ?vk_events_app, ?Hvk; reflexivity|].
  all: rewrite Hn; cbn; rewrite Hs; cbn;
       repeat match goal with H : N.eqb _ _ = _ |- _ => rewrite H end;
       reflexivity.
Qed.

Lemma CreateSurface_native_decides_witness :
  In (type (window Wayland)) (compiled_types TOther) /\
  exists ci,
    vk_events (trace (CreateSurface env_ok TOther inst_all (window Wayland) store0))
      = [EvGetProcAddr 5%N "vkCreateWaylandSurfaceKHR";
         EvNative "vkCreateWaylandSurfaceKHR" 42%N 5%N ci] /\
    result (CreateSurface env_ok TOther inst_all (window Wayland) store0)
      = Ok {| surface_handle := 77%N; surface_owner := 5%N; surface_dld := dld_all |}.
Proof.
  assert (Hin : In (type (window Wayland)) (compiled_types TOther)) by (cbn; tauto).
  split; [exact Hin|].
  destruct (CreateSurface_native_decides env_ok TOther inst_all (window Wayland)
              store0 Hin ltac:(vm_compute; discriminate)) as [ci [Hev Hr]].
  exists ci. split; [exact Hev|]. rewrite Hr. reflexivity.
Defined.

(** A trace whose last event is a log line. *)
Definition ends_with_log (t : list event) : bool :=
  match rev t with
  | EvLog _ :: _ => true
  | _ => false
  end.

Lemma ends_with_log_spec (t : list event) :
  ends_with_log t = true -> exists pre msg, t = pre ++ [EvLog msg].
Proof.
  unfold ends_with_log. intros H.
  destruct (rev t) as [|ev rest] eqn:Hr; [discriminate|].
  destruct ev; try discriminate.
  exists (rev rest), message.
  rewrite <- (rev_involutive t), Hr. reflexivity.
Qed.

Lemma ends_with_log_app (t l : list event) :
  ends_with_log l = true -> ends_with_log (t ++ l) = true.
Proof.
  unfold ends_with_log. rewrite rev_app_distr.
  destruct (rev l); [discriminate|]. intros H. exact H.
Qed.

(** Every failure is logged: when [CreateSurface] throws, the last event of
    its trace is an error log line, and nothing comes after it. *)
Theorem CreateSurface_failure_logged (E : env) (tgt : target) (instance : Instance)
    (window_info : WindowSystemInfo) (s : store) (e : VkResult) :
  let r := CreateSurface E tgt instance window_info s in
  result r = Throw e ->
  exists pre msg, trace r = pre ++ [EvLog msg].
Proof.
  intros r Hr. subst r. revert Hr.
  destruct window_info as [ty dc rs].
  destruct tgt, ty; run; cbn [type]; open_metal; cbn.
  all: try (match goal with
            | |- context [N.eqb ?f nullptr] =>
                destruct (N.eqb f nullptr) eqn:?; cbn
            end).
  all: try split_native.
  all: intros Hr; try discriminate Hr.
  all: apply ends_with_log_spec;
       first [reflexivity | apply ends_with_log_app; reflexivity].
Qed.

Lemma CreateSurface_failure_logged_witness :
  result (CreateSurface env_ok TOther inst_none (window X11) store0)
    = Throw VK_ERROR_INITIALIZATION_FAILED /\
  exists pre msg,
    trace (CreateSurface env_ok TOther inst_none (window X11) store0)
      = pre ++ [EvLog msg].
Proof.
  split; [reflexivity|].
  exact (CreateSurface_failure_logged env_ok TOther inst_none (window X11) store0
           VK_ERROR_INITIALIZATION_FAILED eq_refl).
Defined.

Definition is_log (e : event) : bool :=
  match e with EvLog _ => true | _ => false end.

(** Only the Apple builder touches Objective-C state: on any other build, or
    for any other discriminant, [CreateSurface] leaves the store as it was
    and looks up no class and sends no message: every event is a
    graphics-API event or a log line. *)
Theorem CreateSurface_objc_untouched (E : env) (tgt : target) (instance : Instance)
    (window_info : WindowSystemInfo) (s : store) :
  tgt <> TApple \/ type window_info <> MacOs ->
  let r := CreateSurface E tgt instance window_info s in
  final_store r = s /\
  forallb (fun ev => is_vk_event ev || is_log ev) (trace r) = true.
Proof.
  intros Hnot r. subst r.
  destruct window_info as [ty dc rs].
  destruct tgt, ty; cbn [type] in Hnot;
    try (exfalso; destruct Hnot as [Hn | Hn]; apply Hn; reflexivity); run.
  all: cbn.
  all: try (match goal with
            | |- context [N.eqb ?f nullptr] =>
                destruct (N.eqb f nullptr) eqn:?; cbn
            end).
  all: try split_native.
  all: split; reflexivity.
Qed.

Lemma CreateSurface_objc_untouched_witness :
  final_store (CreateSurface env_ok TApple inst_all (window X11) store0) = store0.
Proof.
  assert (H : TApple <> TApple \/ type (window X11) <> MacOs)
    by (right; discriminate).
  exact (proj1 (CreateSurface_objc_untouched env_ok TApple inst_all (window X11)
                  store0 H)).
Defined.

(** ** Effects of [MetalLayer] on the Objective-C store *)

(** The store after a successful [MetalLayer] with a non-null view. *)
Lemma MetalLayer_success_view (E : env) (view : ptr) (s : store) :
  objc_getClass E "CAMetalLayer" <> nullptr ->
  layer_alloc_ok E = true ->
  view <> nullptr ->
  exists s' t,
    MetalLayer E view s = (Ok (N.succ (next_obj s)), s', t) /\
    props s' view "wantsLayer" = VBool true /\
    props s' view "layer" = VPtr (N.succ (next_obj s)).
Proof.
  intros Hcls Halloc Hview.
  apply N.eqb_neq in Hcls, Hview.
  assert (Hfresh : N.eqb (N.succ (next_obj s)) nullptr = false)
    by (apply N.eqb_neq; unfold nullptr; lia).
  unfold MetalLayer; run.
  rewrite Hcls, Halloc; cbn. rewrite Hfresh, Hview; cbn.
  do 2 eexists; split; [reflexivity|].
  unfold set_prop; cbn [props].
  split; rewrite ?andb_false_r, ?N.eqb_refl; cbn; reflexivity.
Qed.

(** On success with a non-null view, the view is made layer-backed and
    holds the new layer: [wantsLayer] is [YES] and [layer] is the returned
    pointer. *)
Theorem MetalLayer_attaches_layer (E : env) (view : ptr) (s : store) :
  objc_getClass E "CAMetalLayer" <> nullptr ->
  layer_alloc_ok E = true ->
  view <> nullptr ->
  let r := MetalLayer E view s in
  exists layer,
    result r = Ok layer /\
    props (final_store r) view "wantsLayer" = VBool true /\
    props (final_store r) view "layer" = VPtr layer.
Proof.
  intros Hcls Halloc Hview r. subst r.
  destruct (MetalLayer_success_view E view s Hcls Halloc Hview)
    as (s' & t & Heq & Hw & Hl).
  rewrite Heq. exists (N.succ (next_obj s)). auto.
Qed.

Lemma MetalLayer_attaches_layer_witness :
  exists layer,
    result (MetalLayer env_ok 22%N store0) = Ok layer /\
    props (final_store (MetalLayer env_ok 22%N store0)) 22%N "wantsLayer" = VBool true /\
    props (final_store (MetalLayer env_ok 22%N store0)) 22%N "layer" = VPtr layer.
Proof.
  assert (H1 : objc_getClass env_ok "CAMetalLayer" <> nullptr)
    by (vm_compute; discriminate).
  assert (H3 : (22%N : ptr) <> nullptr) by (vm_compute; discriminate).
  exact (MetalLayer_attaches_layer env_ok 22%N store0 H1 eq_refl H3).
Defined.

(** [MetalLayer] changes no object other than the view and the layer it
    creates (the main screen in particular is only read). It allocates at
    most one object. *)
Theorem MetalLayer_frame (E : env) (view : ptr) (s : store) :
  let r := MetalLayer E view s in
  (next_obj (final_store r) = next_obj s \/
   next_obj (final_store r) = N.succ (next_obj s)) /\
  (forall o k, o <> view -> o <> N.succ (next_obj s) ->
     props (final_store r) o k = props s o k).
Proof.
  intros r. subst r. unfold MetalLayer; run.
  repeat (match goal with
          | |- context [if ?b then _ else _] => destruct b eqn:?
          end; cbn).
  all: split; [tauto|].
  all: intros o k Ho Hl.
  all: assert (Hv : N.eqb view o = false)
         by (apply N.eqb_neq; intros Heq; apply Ho; symmetry; exact Heq).
  all: assert (Hf : N.eqb (N.succ (next_obj s)) o = false)
         by (apply N.eqb_neq; intros Heq; apply Hl; symmetry; exact Heq).
  all: unfold set_prop; cbn [props]; rewrite ?Hv, ?Hf; reflexivity.
Qed.

(** ** The Apple builder and the adapter together *)

(** Once [MetalLayer] has succeeded on a non-null view, the view stays
    layer-backed with the new layer whatever happens next. This holds when
    [CreateSurface] returns, and also when it throws because
    [vkCreateMetalSurfaceEXT] is missing or fails: the change to the view
    is not undone. *)
Theorem CreateSurface_apple_view_kept (E : env) (instance : Instance)
    (window_info : WindowSystemInfo) (s : store) :
  type window_info = MacOs ->
  objc_getClass E "CAMetalLayer" <> nullptr ->
  layer_alloc_ok E = true ->
  render_surface window_info <> nullptr ->
  let r := CreateSurface E TApple instance window_info s in
  props (final_store r) (render_surface window_info) "wantsLayer" = VBool true /\
  props (final_store r) (render_surface window_info) "layer"
    = VPtr (N.succ (next_obj s)).
Proof.
  intros Hty Hcls Halloc Hview r. subst r.
  destruct window_info as [ty dc rs]; cbn in Hty, Hview; subst ty.
  cbn [render_surface].
  destruct (MetalLayer_success_view E rs s Hcls Halloc Hview)
    as (s' & t & Heq & Hw & Hl).
  run. rewrite Heq. cbn.
  destruct (N.eqb (vkGetInstanceProcAddr (Dispatch instance)
                     (instance_handle instance) "vkCreateMetalSurfaceEXT") nullptr);
    cbn; [split; assumption|].
  split_native; split; assumption.
Qed.

Lemma CreateSurface_apple_view_kept_witness :
  result (CreateSurface env_ok TApple inst_none (window MacOs) store0)
    = Throw VK_ERROR_INITIALIZATION_FAILED /\
  props (final_store (CreateSurface env_ok TApple inst_none (window MacOs) store0))
    22%N "layer" = VPtr 1001%N.
Proof.
  assert (H1 : objc_getClass env_ok "CAMetalLayer" <> nullptr)
    by (vm_compute; discriminate).
  assert (H3 : render_surface (window MacOs) <> nullptr)
    by (vm_compute; discriminate).
  split; [vm_compute; reflexivity|].
  exact (proj2 (CreateSurface_apple_view_kept env_ok inst_none (window MacOs) store0
                  eq_refl H1 eq_refl H3)).
Defined.

(** The layer handed to [vkCreateMetalSurfaceEXT] is the one [MetalLayer]
    attached to the view. It is non-null when the adapter succeeded. *)
Theorem CreateSurface_apple_layer_passed (E : env) (instance : Instance)
    (window_info : WindowSystemInfo) (s : store) :
  type window_info = MacOs ->
  objc_getClass E "CAMetalLayer" <> nullptr ->
  layer_alloc_ok E = true ->
  render_surface window_info <> nullptr ->
  let h := instance_handle instance in
  let f := vkGetInstanceProcAddr (Dispatch instance) h "vkCreateMetalSurfaceEXT" in
  f <> nullptr ->
  let r := CreateSurface E TApple instance window_info s in
  exists layer,
    layer <> nullptr /\
    props (final_store r) (render_surface window_info) "layer" = VPtr layer /\
    In (EvNative "vkCreateMetalSurfaceEXT" f h
          (CIMetal (Build_VkMetalSurfaceCreateInfoEXT
             VK_STRUCTURE_TYPE_METAL_SURFACE_CREATE_INFO_EXT nullptr 0%Z layer)))
       (trace r).
Proof.
  intros Hty Hcls Halloc Hview h f Hf r. subst h f r.
  destruct window_info as [ty dc rs]; cbn in Hty, Hview; subst ty.
  cbn [render_surface].
  destruct (MetalLayer_success_view E rs s Hcls Halloc Hview)
    as (s' & t & Heq & Hw & Hl).
  apply N.eqb_neq in Hf.
  exists (N.succ (next_obj s)).
  split; [unfold nullptr; lia|].
  run. rewrite Heq. cbn. rewrite Hf. cbn.
  split_native; (split; [assumption|]); rewrite ?in_app_iff; cbn; intuition auto.
Qed.

Lemma CreateSurface_apple_layer_passed_witness :
  In (EvNative "vkCreateMetalSurfaceEXT" 42%N 5%N
        (CIMetal (Build_VkMetalSurfaceCreateInfoEXT
           VK_STRUCTURE_TYPE_METAL_SURFACE_CREATE_INFO_EXT nullptr 0%Z 1001%N)))
     (trace (CreateSurface env_ok TApple inst_all (window MacOs) store0)).
Proof.
  assert (H1 : objc_getClass env_ok "CAMetalLayer" <> nullptr)
    by (vm_compute; discriminate).
  assert (H3 : render_surface (window MacOs) <> nullptr)
    by (vm_compute; discriminate).
  assert (H4 : vkGetInstanceProcAddr (Dispatch inst_all) (instance_handle inst_all)
                 "vkCreateMetalSurfaceEXT" <> nullptr)
    by (vm_compute; discriminate).
  destruct (CreateSurface_apple_layer_passed env_ok inst_all (window MacOs) store0
              eq_refl H1 eq_refl H3 H4) as (layer & Hnz & Hl & Hin).
  vm_compute in Hl. injection Hl as <-. exact Hin.
Defined.
